(** * sherpa-onnx: the offline recognizer factory

    A shallow embedding of [OfflineRecognizerImpl::Create]
    (sherpa-onnx/csrc/offline-recognizer-impl.cc) and of the abstract
    interface declared in sherpa-onnx/csrc/offline-recognizer-impl.h,
    with the properties the specification states about them. *)

From Stdlib Require Import ZArith Lia Ascii String.
From stdpp Require Import gmap strings list fin_maps.

Local Open Scope Z_scope.

(** ** Strings *)

Module Str.

(** [std::string::empty()]. *)
Definition empty (s : string) : bool :=
  match s with
  | EmptyString => true
  | String _ _ => false
  end.

Definition nl : string := String "010"%char EmptyString.

(** [std::string::c_str()] read back as a C string: the characters up to
    the first NUL. *)
Fixpoint c_str (s : string) : string :=
  match s with
  | EmptyString => EmptyString
  | String c r => if Ascii.eqb c "000"%char then EmptyString else String c (c_str r)
  end.

(** No NUL character inside: the strings a [char *] can hand over. *)
Fixpoint nul_free (s : string) : bool :=
  match s with
  | EmptyString => true
  | String c r => negb (Ascii.eqb c "000"%char) && nul_free r
  end.

(** [printf]-style formatting with one [%s] directive and one argument:
    the first [%s] of the format is replaced by the argument, the rest of
    the format is copied. *)
Fixpoint format_s (fmt arg : string) : string :=
  match fmt with
  | EmptyString => EmptyString
  | String c rest =>
      match rest with
      | String d rest' =>
          if Ascii.eqb c "%"%char && Ascii.eqb d "s"%char then arg +:+ rest'
          else String c (format_s rest arg)
      | EmptyString => String c EmptyString
      end
  end.

(** [sub] occurs in [s] as a contiguous run of characters. *)
Definition contains (s sub : string) : Prop :=
  exists pre post, s = pre +:+ sub +:+ post.

End Str.

(** ** Configuration *)

(** Modelled from the spec: the configuration records are declared in
    offline-recognizer.h and the headers it includes, which are not among
    the sources; the factory reads [model_config.transducer.encoder_filename]
    and [model_config.paraformer.model], and the specification (4.3, 6)
    names the decoder and joiner paths as the Transducer family's auxiliary
    fields. *)
Record OfflineTransducerModelConfig := {
  encoder_filename : string;
  decoder_filename : string;
  joiner_filename : string;
}.

Record OfflineParaformerModelConfig := {
  model : string;
}.

Record OfflineModelConfig := {
  transducer : OfflineTransducerModelConfig;
  paraformer : OfflineParaformerModelConfig;
}.

Record OfflineRecognizerConfig := {
  model_config : OfflineModelConfig;
}.

(** ** Recognizers *)

(** Modelled from the spec: the two concrete subclasses of
    [OfflineRecognizerImpl] and their constructors are declared in
    offline-recognizer-transducer-impl.h and
    offline-recognizer-paraformer-impl.h, which are not among the sources.
    The specification (4.3, step 5) has the factory "construct and return"
    the implementation of the family, "forwarding the entire original
    Configuration ... to the chosen implementation's constructor".  A
    recognizer is the constructor that was called and the configuration it
    was called with; what the constructor does with that configuration
    (4.1: it builds its own sessions from its own files) is not unfolded. *)
Inductive OfflineRecognizerImpl :=
| OfflineRecognizerTransducerImpl (config : OfflineRecognizerConfig)
| OfflineRecognizerParaformerImpl (config : OfflineRecognizerConfig).

(** [std::unique_ptr<T>]: [None] is the null pointer. *)
Definition unique_ptr (T : Type) : Type := option T.

Inductive ModelFamily := Transducer | SinglePassNonAutoregressive | Unknown.

Definition family_of (r : OfflineRecognizerImpl) : ModelFamily :=
  match r with
  | OfflineRecognizerTransducerImpl _ => Transducer
  | OfflineRecognizerParaformerImpl _ => SinglePassNonAutoregressive
  end.

Definition config_of (r : OfflineRecognizerImpl) : OfflineRecognizerConfig :=
  match r with
  | OfflineRecognizerTransducerImpl c => c
  | OfflineRecognizerParaformerImpl c => c
  end.

(** ** The inference engine and the file helper

    What the factory calls but does not own: [ReadFile] (onnx-utils.h) and
    the ONNX Runtime session with its metadata table. *)
Class Engine := {
  Buf : Type;
  Session : Type;
  (** [ReadFile(filename)]: the bytes of the file. *)
  ReadFile : string -> Buf;
  (** [Ort::Session(env, buf.data(), buf.size(), sess_opts)]; [None] when
      the constructor throws. *)
  Ort_Session : Buf -> option Session;
  (** [Ort::Session::GetModelMetadata()], as the custom metadata map. *)
  GetModelMetadata : Session -> gmap string string;
}.

(** ** Effects of the factory *)

Section Effects.
Context {E : Engine}.

Inductive Event :=
| EvLogE (msg : string)
| EvReadFile (filename : string)
| EvSession (buf : Buf)
| EvNew (r : OfflineRecognizerImpl).

(** How a call ends: it returns a value, the process exits with a status,
    or an exception of the inference engine leaves the function. *)
Inductive Outcome (A : Type) :=
| Returned (a : A)
| Exited (status : Z)
| Thrown.

(** A computation is the events it performed, in order, and its outcome. *)
Definition M (A : Type) : Type := list Event * Outcome A.

End Effects.

Arguments Returned {_} a.
Arguments Exited {_} status.
Arguments Thrown {_}.

Section Monad.
Context {E : Engine}.

Definition ret {A} (a : A) : M A := ([], Returned a).

Definition bind {A B} (m : M A) (f : A -> M B) : M B :=
  match m with
  | (t, Returned a) => let (t', r) := f a in (t ++ t', r)
  | (t, Exited status) => (t, Exited status)
  | (t, Thrown) => (t, Thrown)
  end.

Definition emit (e : Event) : M unit := ([e], Returned tt).

(** [exit(status)] never returns. *)
Definition exit {A} (status : Z) : M A := ([], Exited status).

Definition throw {A} : M A := ([], Thrown).

Definition events {A} (m : M A) : list Event := fst m.
Definition outcome {A} (m : M A) : Outcome A := snd m.

End Monad.

Notation "x <- m ;; k" := (bind m (fun x => k))
  (at level 100, m at next level, right associativity).
Notation "m ;;; k" := (bind m (fun _ => k))
  (at level 100, right associativity).

Section Factory.
Context {E : Engine}.

(** Modelled from the spec: [SHERPA_ONNX_LOGE] is defined in macros.h,
    which is not among the sources; the specification (7) has errors
    "reported via a diagnostic message".  The event carries the formatted
    message. *)
Definition SHERPA_ONNX_LOGE (msg : string) : M unit := emit (EvLogE msg).

(** Modelled from the spec: [SHERPA_ONNX_READ_META_DATA_STR] is defined in
    macros.h, which is not among the sources; the specification (4.1)
    gives its output as "a single string value for the requested key
    (empty string if the key is absent ...)". *)
Definition SHERPA_ONNX_READ_META_DATA_STR
    (meta_data : gmap string string) (src_key : string) : string :=
  default EmptyString (meta_data !! src_key).

Definition read_file (filename : string) : M Buf :=
  emit (EvReadFile filename) ;;; ret (ReadFile filename).

Definition new_session (buf : Buf) : M Session :=
  emit (EvSession buf) ;;;
  match Ort_Session buf with
  | Some sess => ret sess
  | None => throw
  end.

(** Modelled from the spec: [std::make_unique<T>(config)] calls the
    constructor of [T], which is not among the sources (see
    [OfflineRecognizerImpl]).  The call is one event, [EvNew], that stands
    for the whole run of the constructor: the files it reads and the
    sessions it builds are inside that event, they are not [EvReadFile] or
    [EvSession] events, which record the calls written in [Create] itself
    (lines 33 and 36).  The specification (4.3, step 5) has the factory
    "construct and return" the recognizer: the call yields the object, and
    the pointer [make_unique] returns is never null. *)
Definition make_unique (r : OfflineRecognizerImpl)
  : M (unique_ptr OfflineRecognizerImpl) :=
  emit (EvNew r) ;;; ret (Some r).

Definition no_model_msg : string := "Please provide a model".

Definition unsupported_fmt : string :=
  Str.nl +:+ "Unsupported model_type: %s" +:+ Str.nl +:+
  "We support only the following model types at present: " +:+ Str.nl +:+
  " - transducer models from icefall" +:+ Str.nl +:+
  " - Paraformer models from FunASR" +:+ Str.nl.

(** Lines 24-31 of offline-recognizer-impl.cc: the choice of
    [model_filename]. *)
Definition select_model_filename (config : OfflineRecognizerConfig)
  : M string :=
  if negb (Str.empty (encoder_filename (transducer (model_config config)))) then
    ret (encoder_filename (transducer (model_config config)))
  else if negb (Str.empty (model (paraformer (model_config config)))) then
    ret (model (paraformer (model_config config)))
  else
    SHERPA_ONNX_LOGE no_model_msg ;;; exit (-1).

(** Lines 45-60: the dispatch on [model_type]. *)
Definition dispatch (config : OfflineRecognizerConfig) (model_type : string)
  : M (unique_ptr OfflineRecognizerImpl) :=
  if String.eqb model_type "conformer" || String.eqb model_type "zipformer" then
    make_unique (OfflineRecognizerTransducerImpl config)
  else if String.eqb model_type "paraformer" then
    make_unique (OfflineRecognizerParaformerImpl config)
  else
    SHERPA_ONNX_LOGE (Str.format_s unsupported_fmt (Str.c_str model_type)) ;;;
    exit (-1).

(** [OfflineRecognizerImpl::Create].  The locals [env], [sess_opts] and
    [allocator] are built without reading the model and only feed the
    session and the metadata lookup; they leave no event. *)
Definition Create (config : OfflineRecognizerConfig)
  : M (unique_ptr OfflineRecognizerImpl) :=
  model_filename <- select_model_filename config ;;
  buf <- read_file model_filename ;;
  encoder_sess <- new_session buf ;;
  let meta_data := GetModelMetadata encoder_sess in
  let model_type := SHERPA_ONNX_READ_META_DATA_STR meta_data "model_type" in
  dispatch config model_type.

(** The family the comparisons of lines 45 and 49 name for a
    [model_type]. *)
Definition classify (model_type : string) : ModelFamily :=
  if String.eqb model_type "conformer" || String.eqb model_type "zipformer" then
    Transducer
  else if String.eqb model_type "paraformer" then
    SinglePassNonAutoregressive
  else
    Unknown.

(** The family of the recognizer a call hands back; [Unknown] when it
    hands back none. *)
Definition returned_family (m : M (unique_ptr OfflineRecognizerImpl))
  : ModelFamily :=
  match outcome m with
  | Returned (Some r) => family_of r
  | _ => Unknown
  end.

(** The specification's rule for the primary model path (4.3, step 1):
    the sub-records are checked in the order Transducer encoder path,
    then paraformer model path, and the first non-empty path is used. *)
Definition spec_primary_path (config : OfflineRecognizerConfig)
  : option string :=
  find (fun path => negb (Str.empty path))
    [encoder_filename (transducer (model_config config));
     model (paraformer (model_config config))].

Definition is_load (e : Event) : bool :=
  match e with
  | EvReadFile _ | EvSession _ => true
  | _ => false
  end.

Definition is_new (e : Event) : bool :=
  match e with
  | EvNew _ => true
  | _ => false
  end.

End Factory.

(** ** The recognizer interface (offline-recognizer-impl.h)

    [CreateStream] and [DecodeStreams] are pure virtual: the header gives
    their signatures, the concrete recognizers give the bodies. *)

(** The family-specific decoding algorithm: the result for the stream at
    position [i] of a batch with the given features. *)
Class Decoder := {
  Features : Type;
  Result : Type;
  decode_batch : list Features -> nat -> Result;
}.

Section Interface.
Context {D : Decoder}.

(** Modelled from the spec: [OfflineStream] is declared in
    offline-stream.h, which is not among the sources; the specification
    (3) describes it as "per-utterance mutable state (buffered features,
    decode results)". *)
Record OfflineStream := {
  features : Features;
  result : option Result;
}.

Definition SetResult (r : Result) (s : OfflineStream) : OfflineStream :=
  {| features := features s; result := Some r |}.

(** The streams [ss[0], ss[1], ...] point to; [None] for a pointer that
    names no live stream. *)
Definition gather (h : gmap N OfflineStream) (ps : list N)
  : option (list OfflineStream) :=
  mapM (fun p => h !! p) ps.

(** Writes the result of position [i], [i+1], ... into the streams
    [ps] points to, in place. *)
Fixpoint write_results (batch : list Features) (i : nat) (ps : list N)
    (h : gmap N OfflineStream) : gmap N OfflineStream :=
  match ps with
  | [] => h
  | p :: ps' =>
      write_results batch (S i) ps' (alter (SetResult (decode_batch batch i)) p h)
  end.

(** Modelled from the spec: [DecodeStreams(OfflineStream **ss, int32_t n)]
    is pure virtual in offline-recognizer-impl.h and its implementations
    are not among the sources.  The specification (4.4): it "consumes the
    exact number of streams indicated by the explicit count (the caller
    may pass a logically larger buffer but only the first [n] entries are
    processed), runs the family-specific decoding algorithm over all of
    them as one batch, and writes decode results into each Stream in
    place".  [ss] is the buffer of stream pointers and [h] the store of
    live streams; the call returns normally with the new store, or not at
    all ([None]) when the count is negative or exceeds the buffer, or
    when one of the first [n] pointers names no live stream. *)
Definition DecodeStreams (ss : list N) (n : Z) (h : gmap N OfflineStream)
  : option (gmap N OfflineStream) :=
  if decide (0 <= n <= Z.of_nat (length ss)) then
    match gather h (take (Z.to_nat n) ss) with
    | Some streams =>
        Some (write_results (features <$> streams) 0 (take (Z.to_nat n) ss) h)
    | None => None
    end
  else None.

End Interface.

(** ** A concrete engine, decoder and configurations for examples *)

Module Demo.

(** A file system of four model files; a buffer is the [model_type] tag
    of the file, [-] for a model without the tag and the empty buffer for
    a file that is no model. *)
Definition demo_ReadFile (filename : string) : string :=
  if String.eqb filename "enc.bin" then "zipformer"
  else if String.eqb filename "model.bin" then "paraformer"
  else if String.eqb filename "whisper.bin" then "whisper"
  else if String.eqb filename "untagged.bin" then "-"
  else "".

Definition demo_Session (buf : string) : option (gmap string string) :=
  if String.eqb buf "" then None
  else if String.eqb buf "-" then Some ∅
  else Some {[ "model_type" := buf ]}.

Definition demo_engine : Engine := {|
  Buf := string;
  Session := gmap string string;
  ReadFile := demo_ReadFile;
  Ort_Session := demo_Session;
  GetModelMetadata := fun sess => sess;
|}.

Definition mk_config (enc par : string) : OfflineRecognizerConfig :=
  {| model_config :=
       {| transducer := {| encoder_filename := enc;
                           decoder_filename := "dec.bin";
                           joiner_filename := "join.bin" |};
          paraformer := {| model := par |} |} |}.

(** A decoder whose result for a stream is the length of its features
    plus its position in the batch. *)
Definition demo_decoder : Decoder := {|
  Features := list nat;
  Result := nat;
  decode_batch := fun batch i => (length (batch !!! i) + i)%nat;
|}.

Definition fresh_stream (f : list nat) : OfflineStream (D := demo_decoder) :=
  @Build_OfflineStream demo_decoder f None.

Definition demo_store : gmap N (OfflineStream (D := demo_decoder)) :=
  {[ 1%N := fresh_stream [1%nat; 2%nat];
     2%N := fresh_stream [3%nat];
     3%N := fresh_stream [] ]}.


End Demo.

(** ** Observations on a run of the factory *)

Section Observations.
Context {E : Engine}.

Definition is_log (e : Event) : bool :=
  match e with
  | EvLogE _ => true
  | _ => false
  end.

(** The constructor calls of a run, in order. *)
Definition constructed (t : list Event) : list OfflineRecognizerImpl :=
  omap (fun e => match e with EvNew r => Some r | _ => None end) t.

End Observations.

(** * Properties *)

(** ** Strings *)

Lemma empty_true_iff (s : string) : Str.empty s = true <-> s = EmptyString.
Proof. destruct s; simpl; split; congruence. Qed.

Lemma empty_false_iff (s : string) : Str.empty s = false <-> s <> EmptyString.
Proof. destruct s; simpl; split; congruence. Qed.

Lemma append_assoc (a b c : string) : (a +:+ b) +:+ c = a +:+ (b +:+ c).
Proof.
  induction a as [|x a IH]; [reflexivity |].
  change (String x ((a +:+ b) +:+ c) = String x (a +:+ (b +:+ c))).
  now rewrite IH.
Qed.

Lemma c_str_nul_free (s : string) : Str.nul_free s = true -> Str.c_str s = s.
Proof.
  induction s as [|c s IH]; simpl; [reflexivity |].
  destruct (Ascii.eqb c "000"); simpl; [discriminate |].
  intros Hs. now rewrite IH.
Qed.

Lemma nul_free_c_str (s : string) : Str.nul_free (Str.c_str s) = true.
Proof.
  induction s as [|c s IH]; simpl; [reflexivity |].
  destruct (Ascii.eqb c "000") eqn:Hc; simpl; [reflexivity |].
  now rewrite Hc, IH.
Qed.

Lemma contains_middle (pre sub post : string) :
  Str.contains (pre +:+ sub +:+ post) sub.
Proof. now exists pre, post. Qed.

(** The report of an unsupported [model_type], with the argument in place. *)
Lemma unsupported_report (arg : string) :
  Str.format_s unsupported_fmt arg =
  (Str.nl +:+ "Unsupported model_type: ") +:+ arg +:+
  (Str.nl +:+ "We support only the following model types at present: " +:+
   Str.nl +:+ " - transducer models from icefall" +:+
   Str.nl +:+ " - Paraformer models from FunASR" +:+ Str.nl).
Proof. reflexivity. Qed.

Lemma unsupported_report_families (arg : string) :
  Str.contains (Str.format_s unsupported_fmt arg) "transducer" /\
  Str.contains (Str.format_s unsupported_fmt arg) "Paraformer".
Proof.
  rewrite unsupported_report. split.
  - exists ((Str.nl +:+ "Unsupported model_type: ") +:+ arg +:+
            (Str.nl +:+ "We support only the following model types at present: "
               +:+ Str.nl +:+ " - ")),
           (" models from icefall" +:+ Str.nl +:+
            " - Paraformer models from FunASR" +:+ Str.nl).
    rewrite !append_assoc. reflexivity.
  - exists ((Str.nl +:+ "Unsupported model_type: ") +:+ arg +:+
            (Str.nl +:+ "We support only the following model types at present: "
               +:+ Str.nl +:+ " - transducer models from icefall"
               +:+ Str.nl +:+ " - ")),
           (" models from FunASR" +:+ Str.nl).
    rewrite !append_assoc. reflexivity.
Qed.

(** ** The classifier *)

Lemma classify_Transducer (s : string) :
  classify s = Transducer <-> s = "conformer" \/ s = "zipformer".
Proof.
  unfold classify.
  destruct (String.eqb_spec s "conformer") as [-> | Hc]; simpl; [tauto |].
  destruct (String.eqb_spec s "zipformer") as [-> | Hz]; simpl; [tauto |].
  destruct (String.eqb_spec s "paraformer") as [-> | Hp];
    split; try discriminate; intros [? | ?]; congruence.
Qed.

Lemma classify_SinglePass (s : string) :
  classify s = SinglePassNonAutoregressive <-> s = "paraformer".
Proof.
  unfold classify.
  destruct (String.eqb_spec s "conformer") as [-> | Hc]; simpl;
    [split; discriminate |].
  destruct (String.eqb_spec s "zipformer") as [-> | Hz]; simpl;
    [split; discriminate |].
  destruct (String.eqb_spec s "paraformer") as [-> | Hp]; [tauto |].
  split; [discriminate | congruence].
Qed.

Lemma classify_Unknown (s : string) :
  classify s = Unknown <->
  s <> "conformer" /\ s <> "zipformer" /\ s <> "paraformer".
Proof.
  unfold classify.
  destruct (String.eqb_spec s "conformer") as [-> | Hc]; simpl;
    [split; [discriminate | tauto] |].
  destruct (String.eqb_spec s "zipformer") as [-> | Hz]; simpl;
    [split; [discriminate | tauto] |].
  destruct (String.eqb_spec s "paraformer") as [-> | Hp];
    [split; [discriminate | tauto] | tauto].
Qed.

Section FactoryLemmas.
Context {E : Engine}.

(** The dispatch of lines 45-60 follows [classify]. *)
Lemma dispatch_classify (config : OfflineRecognizerConfig) (model_type : string) :
  dispatch config model_type =
  match classify model_type with
  | Transducer =>
      ([EvNew (OfflineRecognizerTransducerImpl config)],
       Returned (Some (OfflineRecognizerTransducerImpl config)))
  | SinglePassNonAutoregressive =>
      ([EvNew (OfflineRecognizerParaformerImpl config)],
       Returned (Some (OfflineRecognizerParaformerImpl config)))
  | Unknown =>
      ([EvLogE (Str.format_s unsupported_fmt (Str.c_str model_type))],
       Exited (-1))
  end.
Proof.
  unfold dispatch, classify.
  destruct (String.eqb model_type "conformer" || String.eqb model_type "zipformer");
    [reflexivity |].
  destruct (String.eqb model_type "paraformer"); reflexivity.
Qed.

(** The choice of lines 24-31 follows the specification's priority rule. *)
Lemma select_model_filename_spec (config : OfflineRecognizerConfig) :
  select_model_filename config =
  match spec_primary_path config with
  | Some path => ([], Returned path)
  | None => ([EvLogE no_model_msg], Exited (-1))
  end.
Proof.
  unfold select_model_filename, spec_primary_path. simpl.
  destruct (Str.empty (encoder_filename _)); simpl; [| reflexivity].
  destruct (Str.empty (model _)); reflexivity.
Qed.

(** One equation for the whole of [Create]. *)
Lemma Create_run (config : OfflineRecognizerConfig) :
  Create config =
  match spec_primary_path config with
  | None => ([EvLogE no_model_msg], Exited (-1))
  | Some path =>
      match Ort_Session (ReadFile path) with
      | None => ([EvReadFile path; EvSession (ReadFile path)], Thrown)
      | Some sess =>
          let d := dispatch config
                     (SHERPA_ONNX_READ_META_DATA_STR (GetModelMetadata sess)
                        "model_type") in
          (EvReadFile path :: EvSession (ReadFile path) :: events d, outcome d)
      end
  end.
Proof.
  unfold Create. rewrite select_model_filename_spec.
  destruct (spec_primary_path config) as [path |]; [| reflexivity].
  unfold read_file, new_session. simpl.
  destruct (Ort_Session (ReadFile path)) as [sess |]; [| reflexivity].
  simpl. destruct (dispatch config _) as [t r]. reflexivity.
Qed.

End FactoryLemmas.

Section FactoryLoads.
Context {E : Engine}.

Lemma dispatch_no_load (config : OfflineRecognizerConfig) (model_type : string) :
  filter (fun e => is_load e = true) (events (dispatch config model_type)) = [].
Proof.
  rewrite dispatch_classify. destruct (classify model_type); reflexivity.
Qed.

(** The loads of a call: the file of the selected path is read and one
    session is built over it; nothing is loaded when no path is selected. *)
Lemma Create_loads (config : OfflineRecognizerConfig) :
  filter (fun e => is_load e = true) (events (Create config)) =
  match spec_primary_path config with
  | Some path => [EvReadFile path; EvSession (ReadFile path)]
  | None => []
  end.
Proof.
  rewrite Create_run.
  destruct (spec_primary_path config) as [path |]; [| reflexivity].
  destruct (Ort_Session (ReadFile path)) as [sess |]; [| reflexivity].
  cbn [events fst]. rewrite !filter_cons_True by reflexivity.
  now rewrite dispatch_no_load.
Qed.

Lemma spec_primary_path_cases (config : OfflineRecognizerConfig) :
  spec_primary_path config =
  if negb (Str.empty (encoder_filename (transducer (model_config config))))
  then Some (encoder_filename (transducer (model_config config)))
  else if negb (Str.empty (model (paraformer (model_config config))))
  then Some (model (paraformer (model_config config)))
  else None.
Proof.
  unfold spec_primary_path. simpl.
  destruct (Str.empty (encoder_filename _)); simpl; [| reflexivity].
  destruct (Str.empty (model _)); reflexivity.
Qed.

End FactoryLoads.

(** ** The claims about the classifier and the factory *)

(** C1. The classifier matches the metadata string exactly: "conformer" and
    "zipformer" are the Transducer family, "paraformer" is the
    SinglePassNonAutoregressive family, and every other string is Unknown,
    among them the variants in case or surrounding whitespace and the empty
    string; the dispatch of [Create] hands back a recognizer of exactly the
    classified family. *)
Theorem classify_exact_match {E : Engine} (model_type : string) :
  (classify model_type = Transducer <->
     model_type = "conformer" \/ model_type = "zipformer") /\
  (classify model_type = SinglePassNonAutoregressive <->
     model_type = "paraformer") /\
  (classify model_type = Unknown <->
     model_type <> "conformer" /\ model_type <> "zipformer" /\
     model_type <> "paraformer") /\
  (forall config,
     returned_family (dispatch config model_type) = classify model_type) /\
  classify "Conformer" = Unknown /\ classify "ZIPFORMER" = Unknown /\
  classify "Paraformer" = Unknown /\ classify " conformer" = Unknown /\
  classify "zipformer " = Unknown /\
  classify ("paraformer" +:+ Str.nl) = Unknown /\
  classify "" = Unknown.
Proof.
  split; [apply classify_Transducer |].
  split; [apply classify_SinglePass |].
  split; [apply classify_Unknown |].
  split.
  - intros config. unfold returned_family. rewrite dispatch_classify.
    destruct (classify model_type); reflexivity.
  - repeat split; reflexivity.
Qed.

(** C2. [Create] picks the primary model path in a fixed order: the
    Transducer encoder path first, then the paraformer model path, and the
    first non-empty one is the file that is read and loaded; when both are
    populated it is the Transducer encoder path, and no other file is
    loaded. *)
Theorem Create_path_priority {E : Engine} (config : OfflineRecognizerConfig) :
  let enc := encoder_filename (transducer (model_config config)) in
  let par := model (paraformer (model_config config)) in
  select_model_filename config =
    match spec_primary_path config with
    | Some path => ret path
    | None => (SHERPA_ONNX_LOGE no_model_msg ;;; exit (-1))
    end /\
  (enc <> "" -> spec_primary_path config = Some enc) /\
  (enc = "" -> par <> "" -> spec_primary_path config = Some par) /\
  (forall path, spec_primary_path config = Some path ->
     filter (fun e => is_load e = true) (events (Create config)) =
     [EvReadFile path; EvSession (ReadFile path)]) /\
  (enc <> "" -> par <> "" ->
     filter (fun e => is_load e = true) (events (Create config)) =
     [EvReadFile enc; EvSession (ReadFile enc)]).
Proof.
  intros enc par.
  assert (Henc : enc <> "" -> spec_primary_path config = Some enc).
  { intros Hne. rewrite spec_primary_path_cases. fold enc.
    apply empty_false_iff in Hne. now rewrite Hne. }
  split; [| split; [exact Henc | split; [| split]]].
  - rewrite select_model_filename_spec.
    destruct (spec_primary_path config); reflexivity.
  - intros He Hp. rewrite spec_primary_path_cases. fold enc par.
    apply empty_true_iff in He. apply empty_false_iff in Hp.
    now rewrite He, Hp.
  - intros path Hsel. now rewrite Create_loads, Hsel.
  - intros He _. now rewrite Create_loads, (Henc He).
Qed.

Lemma Create_path_priority_witness :
  "enc.bin" <> "" /\ "model.bin" <> "" /\
  filter (fun e => is_load e = true)
    (events (Create (E := Demo.demo_engine) (Demo.mk_config "enc.bin" "model.bin"))) =
  [EvReadFile (E := Demo.demo_engine) "enc.bin";
   EvSession (E := Demo.demo_engine) "zipformer"].
Proof.
  split; [discriminate |]. split; [discriminate |].
  apply (Create_path_priority (E := Demo.demo_engine)
           (Demo.mk_config "enc.bin" "model.bin")); discriminate.
Defined.

(** C3. When neither the transducer encoder filename nor the paraformer
    model path is populated, [Create] logs "Please provide a model" and
    exits with status -1; that log is its only event: no file is read and
    no session is built. *)
Theorem Create_no_model {E : Engine} (config : OfflineRecognizerConfig) :
  encoder_filename (transducer (model_config config)) = "" ->
  model (paraformer (model_config config)) = "" ->
  Create config = ([EvLogE "Please provide a model"], Exited (-1)) /\
  filter (fun e => is_load e = true) (events (Create config)) = [].
Proof.
  intros He Hp.
  assert (Hsel : spec_primary_path config = None).
  { rewrite spec_primary_path_cases, He, Hp. reflexivity. }
  split.
  - now rewrite Create_run, Hsel.
  - now rewrite Create_loads, Hsel.
Qed.

Lemma Create_no_model_witness :
  Create (E := Demo.demo_engine) (Demo.mk_config "" "") =
    ([EvLogE "Please provide a model"], Exited (-1)) /\
  filter (fun e => is_load e = true)
    (events (Create (E := Demo.demo_engine) (Demo.mk_config "" ""))) = [].
Proof.
  apply (Create_no_model (E := Demo.demo_engine) (Demo.mk_config "" ""));
    reflexivity.
Defined.

(** C4. When the [model_type] read from the metadata classifies as Unknown,
    [Create] logs a report and exits with status -1.  The report holds the
    value, printed as a C string (the whole value when it has no NUL
    character inside, as every string handed over by the metadata table),
    and names the supported families; no recognizer of any family is
    constructed. *)
Theorem Create_unknown_model_type {E : Engine}
    (config : OfflineRecognizerConfig) (path : string) (sess : Session)
    (model_type : string) :
  spec_primary_path config = Some path ->
  Ort_Session (ReadFile path) = Some sess ->
  SHERPA_ONNX_READ_META_DATA_STR (GetModelMetadata sess) "model_type" = model_type ->
  classify model_type = Unknown ->
  let report := Str.format_s unsupported_fmt (Str.c_str model_type) in
  Create config =
    ([EvReadFile path; EvSession (ReadFile path); EvLogE report], Exited (-1)) /\
  Str.contains report (Str.c_str model_type) /\
  (Str.nul_free model_type = true -> Str.contains report model_type) /\
  Str.contains report "transducer" /\ Str.contains report "Paraformer" /\
  filter (fun e => is_new e = true) (events (Create config)) = [].
Proof.
  intros Hsel Hsess Hmt Hcls report.
  assert (Hrun : Create config =
    ([EvReadFile path; EvSession (ReadFile path); EvLogE report], Exited (-1))).
  { rewrite Create_run, Hsel, Hsess, Hmt, dispatch_classify, Hcls. reflexivity. }
  assert (Hc : Str.contains report (Str.c_str model_type)).
  { unfold report. rewrite unsupported_report. apply contains_middle. }
  split; [exact Hrun |]. split; [exact Hc |]. split; [| split; [| split]].
  - intros Hnul. now rewrite (c_str_nul_free _ Hnul) in Hc.
  - apply unsupported_report_families.
  - apply unsupported_report_families.
  - now rewrite Hrun.
Qed.

Lemma Create_unknown_model_type_witness :
  classify "whisper" = Unknown /\
  outcome (Create (E := Demo.demo_engine) (Demo.mk_config "whisper.bin" "")) =
    Exited (-1) /\
  Str.contains (Str.format_s unsupported_fmt (Str.c_str "whisper")) "whisper".
Proof.
  split; [reflexivity |].
  pose proof (Create_unknown_model_type (E := Demo.demo_engine)
                (Demo.mk_config "whisper.bin" "") "whisper.bin"
                {[ "model_type" := "whisper" ]} "whisper"
                eq_refl eq_refl eq_refl eq_refl) as (Hrun & _ & Hval & _).
  split.
  - now rewrite Hrun.
  - apply Hval. reflexivity.
Defined.

(** C5. When the [model_type] classifies as a known family, [Create]
    constructs and returns the recognizer of that family, and the
    constructor is given the whole configuration of the call, unchanged. *)
Theorem Create_known_model_type {E : Engine}
    (config : OfflineRecognizerConfig) (path : string) (sess : Session)
    (model_type : string) :
  spec_primary_path config = Some path ->
  Ort_Session (ReadFile path) = Some sess ->
  SHERPA_ONNX_READ_META_DATA_STR (GetModelMetadata sess) "model_type" = model_type ->
  classify model_type <> Unknown ->
  exists r,
    Create config =
      ([EvReadFile path; EvSession (ReadFile path); EvNew r], Returned (Some r)) /\
    family_of r = classify model_type /\
    config_of r = config /\
    (classify model_type = Transducer ->
       r = OfflineRecognizerTransducerImpl config) /\
    (classify model_type = SinglePassNonAutoregressive ->
       r = OfflineRecognizerParaformerImpl config).
Proof.
  intros Hsel Hsess Hmt Hcls.
  rewrite Create_run, Hsel, Hsess, Hmt, dispatch_classify.
  destruct (classify model_type); [| | congruence].
  - exists (OfflineRecognizerTransducerImpl config).
    repeat split; try reflexivity; discriminate.
  - exists (OfflineRecognizerParaformerImpl config).
    repeat split; try reflexivity; discriminate.
Qed.

Lemma Create_known_model_type_witness :
  exists r,
    Create (E := Demo.demo_engine) (Demo.mk_config "" "model.bin") =
      ([EvReadFile "model.bin"; EvSession (E := Demo.demo_engine) "paraformer";
        EvNew r], Returned (Some r)) /\
    r = OfflineRecognizerParaformerImpl (Demo.mk_config "" "model.bin").
Proof.
  destruct (Create_known_model_type (E := Demo.demo_engine)
              (Demo.mk_config "" "model.bin") "model.bin"
              {[ "model_type" := "paraformer" ]} "paraformer"
              eq_refl eq_refl eq_refl ltac:(discriminate))
    as (r & Hrun & _ & _ & _ & Hr).
  exists r. split; [exact Hrun | apply Hr; reflexivity].
Defined.

(** C6. When the metadata table has no "model_type" key, the value read is
    the empty string; the empty string classifies as Unknown, and [Create]
    ends with the report of an unsupported [model_type] (with the empty
    value in it), the same as for any other unknown value: there is no
    error of its own for the absent key. *)
Theorem Create_model_type_absent {E : Engine}
    (config : OfflineRecognizerConfig) (path : string) (sess : Session) :
  spec_primary_path config = Some path ->
  Ort_Session (ReadFile path) = Some sess ->
  GetModelMetadata sess !! "model_type" = None ->
  SHERPA_ONNX_READ_META_DATA_STR (GetModelMetadata sess) "model_type" = "" /\
  classify "" = Unknown /\
  Create config =
    ([EvReadFile path; EvSession (ReadFile path);
      EvLogE (Str.format_s unsupported_fmt "")], Exited (-1)).
Proof.
  intros Hsel Hsess Habs.
  assert (Hmt : SHERPA_ONNX_READ_META_DATA_STR (GetModelMetadata sess)
                  "model_type" = "").
  { unfold SHERPA_ONNX_READ_META_DATA_STR. now rewrite Habs. }
  split; [exact Hmt |]. split; [reflexivity |].
  rewrite Create_run, Hsel, Hsess, Hmt, dispatch_classify. reflexivity.
Qed.

Lemma Create_model_type_absent_witness :
  outcome (Create (E := Demo.demo_engine) (Demo.mk_config "untagged.bin" "")) =
    Exited (-1).
Proof.
  destruct (Create_model_type_absent (E := Demo.demo_engine)
              (Demo.mk_config "untagged.bin" "") "untagged.bin" ∅
              eq_refl eq_refl eq_refl) as (_ & _ & Hrun).
  now rewrite Hrun.
Defined.

(** C7. Classification is a function of the [model_type] string alone.
    Two calls of [Create], on any two engines and configurations, that read
    the same [model_type] hand back the same family, the one [classify]
    names; and the comparisons leave no event: after the load, the only
    event of a call is the construction of the recognizer or the report. *)
Theorem classification_deterministic (E1 E2 : Engine)
    (config1 config2 : OfflineRecognizerConfig) (path1 path2 : string)
    (sess1 : Session (Engine := E1)) (sess2 : Session (Engine := E2))
    (model_type : string) :
  spec_primary_path config1 = Some path1 ->
  spec_primary_path config2 = Some path2 ->
  Ort_Session (ReadFile path1) = Some sess1 ->
  Ort_Session (ReadFile path2) = Some sess2 ->
  SHERPA_ONNX_READ_META_DATA_STR (GetModelMetadata sess1) "model_type" = model_type ->
  SHERPA_ONNX_READ_META_DATA_STR (GetModelMetadata sess2) "model_type" = model_type ->
  returned_family (Create (E := E1) config1) = classify model_type /\
  returned_family (Create (E := E2) config2) = classify model_type /\
  events (Create (E := E1) config1) =
    [EvReadFile path1; EvSession (ReadFile path1)] ++
    events (dispatch config1 model_type) /\
  events (Create (E := E2) config2) =
    [EvReadFile path2; EvSession (ReadFile path2)] ++
    events (dispatch config2 model_type) /\
  length (events (dispatch (E := E1) config1 model_type)) = 1%nat /\
  length (events (dispatch (E := E2) config2 model_type)) = 1%nat.
Proof.
  intros Hsel1 Hsel2 Hsess1 Hsess2 Hmt1 Hmt2.
  unfold returned_family.
  rewrite (Create_run (E := E1)), (Create_run (E := E2)).
  rewrite Hsel1, Hsel2, Hsess1, Hsess2, Hmt1, Hmt2.
  rewrite !dispatch_classify.
  destruct (classify model_type); repeat split; reflexivity.
Qed.

Lemma classification_deterministic_witness :
  returned_family (Create (E := Demo.demo_engine) (Demo.mk_config "enc.bin" "")) =
  returned_family
    (Create (E := Demo.demo_engine) (Demo.mk_config "enc.bin" "model.bin")).
Proof.
  destruct (classification_deterministic Demo.demo_engine Demo.demo_engine
              (Demo.mk_config "enc.bin" "") (Demo.mk_config "enc.bin" "model.bin")
              "enc.bin" "enc.bin"
              {[ "model_type" := "zipformer" ]} {[ "model_type" := "zipformer" ]}
              "zipformer" eq_refl eq_refl eq_refl eq_refl eq_refl eq_refl)
    as (H1 & H2 & _).
  now rewrite H1, H2.
Defined.

(** C10. Whenever [Create] returns, the pointer it returns is not null and
    points to a Transducer or a Paraformer recognizer built from the
    configuration of the call; a path was selected, the session was built
    and the [model_type] classified as the family of that recognizer, so
    none of the error paths returns. *)
Theorem Create_returns_recognizer {E : Engine}
    (config : OfflineRecognizerConfig)
    (ptr : unique_ptr OfflineRecognizerImpl) :
  outcome (Create config) = Returned ptr ->
  exists r,
    ptr = Some r /\
    (r = OfflineRecognizerTransducerImpl config \/
     r = OfflineRecognizerParaformerImpl config) /\
    exists path sess,
      spec_primary_path config = Some path /\
      Ort_Session (ReadFile path) = Some sess /\
      classify (SHERPA_ONNX_READ_META_DATA_STR (GetModelMetadata sess)
                  "model_type") = family_of r /\
      family_of r <> Unknown.
Proof.
  rewrite Create_run.
  destruct (spec_primary_path config) as [path |] eqn:Hsel; [| discriminate].
  destruct (Ort_Session (ReadFile path)) as [sess |] eqn:Hsess; [| discriminate].
  cbn zeta. rewrite dispatch_classify.
  destruct (classify _) eqn:Hcls; cbn; intros Hret; [| | discriminate].
  - injection Hret as <-. eexists; split; [reflexivity |]. split; [now left |].
    exists path, sess. repeat split; [exact Hsess | exact Hcls | discriminate].
  - injection Hret as <-. eexists; split; [reflexivity |]. split; [now right |].
    exists path, sess. repeat split; [exact Hsess | exact Hcls | discriminate].
Qed.

Lemma Create_returns_recognizer_witness :
  exists r,
    Some (OfflineRecognizerTransducerImpl (Demo.mk_config "enc.bin" "")) = Some r /\
    (r = OfflineRecognizerTransducerImpl (Demo.mk_config "enc.bin" "") \/
     r = OfflineRecognizerParaformerImpl (Demo.mk_config "enc.bin" "")).
Proof.
  destruct (Create_returns_recognizer (E := Demo.demo_engine)
              (Demo.mk_config "enc.bin" "")
              (Some (OfflineRecognizerTransducerImpl (Demo.mk_config "enc.bin" "")))
              eq_refl) as (r & Hptr & Hr & _).
  exists r. split; [exact Hptr | exact Hr].
Defined.

(** ** The claims about [DecodeStreams] *)

Section InterfaceLemmas.
Context {D : Decoder}.


(** A stream no pointer of [ps] names is left as it is. *)
Lemma write_results_other (batch : list Features) (ps : list N) :
  forall (i : nat) (h : gmap N OfflineStream) (p : N),
    p ∉ ps -> write_results batch i ps h !! p = h !! p.
Proof.
  induction ps as [|q ps IH]; intros i h p Hp; simpl; [reflexivity |].
  apply not_elem_of_cons in Hp as [Hpq Hps].
  rewrite IH by exact Hps. now apply lookup_alter_ne.
Qed.



(** What a normal return of [DecodeStreams] gives away about the call. *)
Lemma DecodeStreams_Some (ss : list N) (n : Z)
    (h h' : gmap N OfflineStream) :
  DecodeStreams ss n h = Some h' ->
  0 <= n <= Z.of_nat (length ss) /\
  exists streams,
    gather h (take (Z.to_nat n) ss) = Some streams /\
    h' = write_results (features <$> streams) 0 (take (Z.to_nat n) ss) h.
Proof.
  unfold DecodeStreams. destruct (decide _) as [Hn |]; [| discriminate].
  destruct (gather h _) as [streams |]; [| discriminate].
  intros [= <-]. split; [exact Hn |]. now exists streams.
Qed.

(** The call returns normally when the count fits the buffer and the
    first [n] pointers name live streams. *)
Lemma DecodeStreams_returns (ss : list N) (n : Z) (h : gmap N OfflineStream) :
  0 <= n <= Z.of_nat (length ss) ->
  Forall (fun p => is_Some (h !! p)) (take (Z.to_nat n) ss) ->
  is_Some (DecodeStreams ss n h).
Proof.
  intros Hn Hlive. unfold DecodeStreams, gather.
  rewrite decide_True by exact Hn.
  destruct (mapM_is_Some_2 (fun p => h !! p) _ Hlive) as [streams ->].
  eauto.
Qed.

End InterfaceLemmas.




(** C9. [DecodeStreams] works on the first [n] entries of the buffer and on
    nothing else: what follows them in the buffer does not change the
    outcome of the call, every stream that none of the first [n] entries
    names is left as it was, and so is the stream of each entry at a
    position from [n] on that is not also one of the first [n]. *)
Theorem DecodeStreams_frame {D : Decoder} (ss : list N) (n : Z)
    (h h' : gmap N OfflineStream) :
  DecodeStreams ss n h = Some h' ->
  (forall rest : list N,
     DecodeStreams (take (Z.to_nat n) ss ++ rest) n h = Some h') /\
  (forall p : N, p ∉ take (Z.to_nat n) ss -> h' !! p = h !! p) /\
  (forall (j : nat) (p : N),
     (Z.to_nat n <= j)%nat -> ss !! j = Some p ->
     p ∉ take (Z.to_nat n) ss -> h' !! p = h !! p).
Proof.
  intros Hdec.
  pose proof (DecodeStreams_Some _ _ _ _ Hdec) as (Hn & streams & Hg & Hh').
  assert (Hlen : (Z.to_nat n <= length ss)%nat) by lia.
  assert (Hframe : forall p : N, p ∉ take (Z.to_nat n) ss -> h' !! p = h !! p).
  { intros p Hp. rewrite Hh'. now apply write_results_other. }
  split; [| split; [exact Hframe | intros j p _ _; apply Hframe]].
  intros rest. unfold DecodeStreams.
  assert (Htake : take (Z.to_nat n) (take (Z.to_nat n) ss ++ rest) =
                  take (Z.to_nat n) ss).
  { apply take_app_length'. now rewrite length_take_le. }
  rewrite decide_True.
  - now rewrite Htake, Hg, Hh'.
  - rewrite length_app, length_take_le by exact Hlen. lia.
Qed.

Lemma DecodeStreams_frame_witness :
  exists h',
    DecodeStreams (D := Demo.demo_decoder) [1%N; 2%N; 3%N] 2 Demo.demo_store =
      Some h' /\
    h' !! 3%N = Demo.demo_store !! 3%N.
Proof.
  eexists. split; [reflexivity |].
  destruct (DecodeStreams_frame (D := Demo.demo_decoder) [1%N; 2%N; 3%N] 2
              Demo.demo_store _ eq_refl) as (_ & _ & Hbeyond).
  apply (Hbeyond 2%nat 3%N); [simpl; lia | reflexivity |].
  simpl. intros Hin. apply elem_of_cons in Hin as [Heq | Hin]; [discriminate |].
  apply elem_of_cons in Hin as [Heq | Hin]; [discriminate | inversion Hin].
Defined.

(** ** Further properties of [Create] *)

Section FactoryShapes.
Context {E : Engine}.

(** The four shapes a run of [Create] can have. *)
Lemma Create_shapes (config : OfflineRecognizerConfig) :
  (spec_primary_path config = None /\
   Create config = ([EvLogE no_model_msg], Exited (-1))) \/
  (exists path,
     spec_primary_path config = Some path /\
     Ort_Session (ReadFile path) = None /\
     Create config = ([EvReadFile path; EvSession (ReadFile path)], Thrown)) \/
  (exists path sess r,
     spec_primary_path config = Some path /\
     Ort_Session (ReadFile path) = Some sess /\
     (r = OfflineRecognizerTransducerImpl config \/
      r = OfflineRecognizerParaformerImpl config) /\
     family_of r =
       classify (SHERPA_ONNX_READ_META_DATA_STR (GetModelMetadata sess)
                   "model_type") /\
     Create config =
       ([EvReadFile path; EvSession (ReadFile path); EvNew r],
        Returned (Some r))) \/
  (exists path sess,
     spec_primary_path config = Some path /\
     Ort_Session (ReadFile path) = Some sess /\
     classify (SHERPA_ONNX_READ_META_DATA_STR (GetModelMetadata sess)
                 "model_type") = Unknown /\
     Create config =
       ([EvReadFile path; EvSession (ReadFile path);
         EvLogE (Str.format_s unsupported_fmt
                   (Str.c_str (SHERPA_ONNX_READ_META_DATA_STR
                                 (GetModelMetadata sess) "model_type")))],
        Exited (-1))).
Proof.
  rewrite Create_run.
  destruct (spec_primary_path config) as [path |]; [| left; now split].
  destruct (Ort_Session (ReadFile path)) as [sess |] eqn:Hsess;
    [| right; left; exists path; now repeat split].
  cbn zeta. rewrite dispatch_classify.
  destruct (classify _) eqn:Hcls.
  - right; right; left.
    exists path, sess, (OfflineRecognizerTransducerImpl config).
    repeat split; [exact Hsess | now left | now rewrite Hcls].
  - right; right; left.
    exists path, sess, (OfflineRecognizerParaformerImpl config).
    repeat split; [exact Hsess | now right | now rewrite Hcls].
  - right; right; right. exists path, sess. now repeat split.
Qed.

Lemma spec_primary_path_Some (config : OfflineRecognizerConfig) (path : string) :
  spec_primary_path config = Some path ->
  path <> "" /\
  (path = encoder_filename (transducer (model_config config)) \/
   encoder_filename (transducer (model_config config)) = "" /\
   path = model (paraformer (model_config config))).
Proof.
  rewrite spec_primary_path_cases.
  destruct (Str.empty (encoder_filename _)) eqn:He; simpl.
  - destruct (Str.empty (model _)) eqn:Hp; simpl; [discriminate |].
    intros [= <-]. split; [now apply empty_false_iff |].
    right. split; [now apply empty_true_iff | reflexivity].
  - intros [= <-]. split; [now apply empty_false_iff | now left].
Qed.

End FactoryShapes.

Ltac Create_cases config :=
  let path := fresh "path" in
  let sess := fresh "sess" in
  let r := fresh "r" in
  let Hsel := fresh "Hsel" in
  let Hsess := fresh "Hsess" in
  let Hr := fresh "Hr" in
  let Hfam := fresh "Hfam" in
  let Hcls := fresh "Hcls" in
  let Hrun := fresh "Hrun" in
  destruct (Create_shapes config)
    as [(Hsel & Hrun)
       | [(path & Hsel & Hsess & Hrun)
         | [(path & sess & r & Hsel & Hsess & Hr & Hfam & Hrun)
           | (path & sess & Hsel & Hsess & Hcls & Hrun)]]];
  rewrite Hrun in *; cbn [events outcome fst snd] in *.

(** X1. A model file the session cannot be built from: [Create] reads the
    selected file, tries the session of line 36 and lets the exception of
    the session constructor through.  Nothing follows the failed session:
    no metadata is classified, nothing is logged, [exit] is not called and
    no recognizer constructor is called. *)
Theorem Create_session_failure {E : Engine}
    (config : OfflineRecognizerConfig) (path : string) :
  spec_primary_path config = Some path ->
  Ort_Session (ReadFile path) = None ->
  Create config = ([EvReadFile path; EvSession (ReadFile path)], Thrown) /\
  filter (fun e => is_log e = true) (events (Create config)) = [] /\
  constructed (events (Create config)) = [].
Proof.
  intros Hsel Hsess.
  assert (Hrun : Create config =
    ([EvReadFile path; EvSession (ReadFile path)], Thrown)).
  { now rewrite Create_run, Hsel, Hsess. }
  rewrite Hrun. now repeat split.
Qed.

Lemma Create_session_failure_witness :
  Create (E := Demo.demo_engine) (Demo.mk_config "" "bad.bin") =
  ([EvReadFile "bad.bin"; EvSession (E := Demo.demo_engine) ""], Thrown).
Proof.
  apply (Create_session_failure (E := Demo.demo_engine)
           (Demo.mk_config "" "bad.bin") "bad.bin"); reflexivity.
Defined.

(** X2. [Create] logs exactly when it exits.  An exit always has status -1
    and is preceded by one log message, the last event of the run, with no
    recognizer constructed; a run that returns or throws logs nothing. *)
Theorem Create_exit_iff_logged {E : Engine} (config : OfflineRecognizerConfig) :
  (forall status,
     outcome (Create config) = Exited status ->
     status = -1 /\
     exists msg,
       last (events (Create config)) = Some (EvLogE msg) /\
       filter (fun e => is_log e = true) (events (Create config)) = [EvLogE msg] /\
       filter (fun e => is_new e = true) (events (Create config)) = []) /\
  (forall msg,
     EvLogE msg ∈ events (Create config) ->
     outcome (Create config) = Exited (-1)).
Proof.
  split.
  - intros status. Create_cases config; intros [= <-].
    + split; [reflexivity |]. eexists. repeat split.
    + split; [reflexivity |]. eexists. repeat split.
  - intros msg. Create_cases config; rewrite ?elem_of_cons, elem_of_nil;
      intros Hin; try reflexivity;
      repeat (destruct Hin as [Hin | Hin]; try discriminate); contradiction.
Qed.

Lemma Create_exit_iff_logged_witness :
  outcome (Create (E := Demo.demo_engine) (Demo.mk_config "whisper.bin" "")) =
  Exited (-1).
Proof.
  apply (Create_exit_iff_logged (E := Demo.demo_engine)
           (Demo.mk_config "whisper.bin" ""))
    with (msg := Str.format_s unsupported_fmt "whisper").
  vm_compute. do 2 apply list_elem_of_further. apply list_elem_of_here.
Defined.

(** X3. A recognizer is constructed exactly when it is the one returned:
    [Create] builds at most one recognizer per call and never builds one
    that it does not hand back. *)
Theorem Create_new_iff_returned {E : Engine} (config : OfflineRecognizerConfig) :
  (forall r,
     EvNew r ∈ events (Create config) <->
     outcome (Create config) = Returned (Some r)) /\
  (length (filter (fun e => is_new e = true) (events (Create config))) <= 1)%nat.
Proof.
  split.
  - intros r'. Create_cases config; rewrite ?elem_of_cons, elem_of_nil.
    + split; [intros [Hin | Hin] | intros Hin]; try discriminate; contradiction.
    + split; [intros [Hin | [Hin | Hin]] | intros Hin];
        try discriminate; contradiction.
    + split.
      * intros [Hin | [Hin | [Hin | Hin]]]; try discriminate; [| contradiction].
        injection Hin as ->. reflexivity.
      * intros [= ->]. right; right; now left.
    + split; [intros [Hin | [Hin | [Hin | Hin]]] | intros Hin];
        try discriminate; contradiction.
  - Create_cases config; simpl; lia.
Qed.

(** X4. The [ReadFile] call of line 33, the one [Create] itself makes to
    look at the metadata, is never given an empty file name: its argument
    is the selected primary path, which is the transducer encoder filename,
    or the paraformer model path when the encoder filename is empty. *)
Theorem Create_reads_selected_path {E : Engine}
    (config : OfflineRecognizerConfig) (filename : string) :
  EvReadFile filename ∈ events (Create config) ->
  filename <> "" /\
  spec_primary_path config = Some filename /\
  (filename = encoder_filename (transducer (model_config config)) \/
   encoder_filename (transducer (model_config config)) = "" /\
   filename = model (paraformer (model_config config))).
Proof.
  assert (Hgoal : spec_primary_path config = Some filename ->
    filename <> "" /\
    spec_primary_path config = Some filename /\
    (filename = encoder_filename (transducer (model_config config)) \/
     encoder_filename (transducer (model_config config)) = "" /\
     filename = model (paraformer (model_config config)))).
  { intros Hsel. destruct (spec_primary_path_Some _ _ Hsel) as [Hne Hor].
    now repeat split. }
  Create_cases config; rewrite ?elem_of_cons, elem_of_nil; intros Hin;
    repeat (destruct Hin as [Hin | Hin]; try discriminate);
    try contradiction;
    injection Hin as ->; apply Hgoal; assumption.
Qed.

Lemma Create_reads_selected_path_witness :
  EvReadFile "model.bin" ∈
    events (Create (E := Demo.demo_engine) (Demo.mk_config "" "model.bin")) /\
  "model.bin" <> "" /\
  spec_primary_path (Demo.mk_config "" "model.bin") = Some "model.bin".
Proof.
  assert (Hin : EvReadFile "model.bin" ∈
    events (Create (E := Demo.demo_engine) (Demo.mk_config "" "model.bin"))).
  { vm_compute. apply list_elem_of_here. }
  split; [exact Hin |].
  destruct (Create_reads_selected_path (E := Demo.demo_engine)
              (Demo.mk_config "" "model.bin") "model.bin" Hin)
    as (Hne & Hsel & _).
  split; [exact Hne | exact Hsel].
Defined.

(** X5. [Create] does not compare the classified family with the
    sub-record that named the file.  With only the transducer encoder
    filename populated and a file tagged "paraformer", the one constructor
    it calls is the Paraformer one, with a configuration whose paraformer
    model path is empty; with only the paraformer model path populated and
    a file tagged "conformer" or "zipformer", the one constructor it calls
    is the Transducer one, with a configuration whose encoder filename is
    empty. *)
Theorem Create_family_from_metadata {E : Engine}
    (config : OfflineRecognizerConfig) (sess : Session) :
  let enc := encoder_filename (transducer (model_config config)) in
  let par := model (paraformer (model_config config)) in
  let model_type :=
    SHERPA_ONNX_READ_META_DATA_STR (GetModelMetadata sess) "model_type" in
  (enc <> "" -> par = "" ->
   Ort_Session (ReadFile enc) = Some sess ->
   model_type = "paraformer" ->
   exists r,
     constructed (events (Create config)) = [r] /\
     r = OfflineRecognizerParaformerImpl config /\
     model (paraformer (model_config (config_of r))) = "") /\
  (enc = "" -> par <> "" ->
   Ort_Session (ReadFile par) = Some sess ->
   model_type = "conformer" \/ model_type = "zipformer" ->
   exists r,
     constructed (events (Create config)) = [r] /\
     r = OfflineRecognizerTransducerImpl config /\
     encoder_filename (transducer (model_config (config_of r))) = "").
Proof.
  intros enc par model_type. split.
  - intros Hne Hpar Hsess Hmt.
    assert (Hsel : spec_primary_path config = Some enc).
    { rewrite spec_primary_path_cases. fold enc.
      apply empty_false_iff in Hne. now rewrite Hne. }
    exists (OfflineRecognizerParaformerImpl config).
    rewrite Create_run, Hsel, Hsess. fold model_type.
    rewrite Hmt, dispatch_classify. now repeat split.
  - intros He Hne Hsess Hmt.
    assert (Hsel : spec_primary_path config = Some par).
    { rewrite spec_primary_path_cases. fold enc par.
      apply empty_true_iff in He. apply empty_false_iff in Hne.
      now rewrite He, Hne. }
    exists (OfflineRecognizerTransducerImpl config).
    rewrite Create_run, Hsel, Hsess. fold model_type.
    rewrite dispatch_classify.
    apply classify_Transducer in Hmt. rewrite Hmt. now repeat split.
Qed.

Lemma Create_family_from_metadata_witness :
  exists r,
    constructed
      (events (Create (E := Demo.demo_engine) (Demo.mk_config "model.bin" ""))) =
      [r] /\
    r = OfflineRecognizerParaformerImpl (Demo.mk_config "model.bin" "") /\
    model (paraformer (model_config (config_of r))) = "".
Proof.
  destruct (Create_family_from_metadata (E := Demo.demo_engine)
              (Demo.mk_config "model.bin" "") {[ "model_type" := "paraformer" ]})
    as [Hcross _].
  apply Hcross; [discriminate | reflexivity | reflexivity | reflexivity].
Defined.

(** X6. What [Create] itself does depends on the configuration through the
    selected primary path only.  For two configurations with the same
    selected path, whatever their other fields, the same file is read, the
    same session is tried, the same message is logged and the constructor
    of the same family is called; the two runs differ in the configuration
    handed to that constructor, each call getting its own. *)
Theorem Create_depends_on_primary_path {E : Engine}
    (config1 config2 : OfflineRecognizerConfig) :
  spec_primary_path config1 = spec_primary_path config2 ->
  filter (fun e => is_new e = false) (events (Create config1)) =
  filter (fun e => is_new e = false) (events (Create config2)) /\
  family_of <$> constructed (events (Create config1)) =
  family_of <$> constructed (events (Create config2)) /\
  Forall (fun r => config_of r = config1) (constructed (events (Create config1))) /\
  Forall (fun r => config_of r = config2) (constructed (events (Create config2))).
Proof.
  intros Hsel.
  rewrite (Create_run config1), (Create_run config2), Hsel.
  destruct (spec_primary_path config2) as [path |];
    [| repeat split; constructor].
  destruct (Ort_Session (ReadFile path)) as [sess |];
    [| repeat split; constructor].
  cbn zeta. rewrite !dispatch_classify.
  destruct (classify _); cbn [events outcome fst snd];
    repeat split; repeat constructor.
Qed.

Lemma Create_depends_on_primary_path_witness :
  filter (fun e => is_new e = false)
    (events (Create (E := Demo.demo_engine) (Demo.mk_config "enc.bin" ""))) =
  filter (fun e => is_new e = false)
    (events (Create (E := Demo.demo_engine)
               (Demo.mk_config "enc.bin" "whisper.bin"))).
Proof.
  apply (Create_depends_on_primary_path (E := Demo.demo_engine)
           (Demo.mk_config "enc.bin" "") (Demo.mk_config "enc.bin" "whisper.bin")).
  reflexivity.
Defined.
